(** * ICA feature-extraction pipeline (ica_megnet_feature_pipeline.py)

    A shallow embedding of the script.  The script is a straight-line
    sequence of calls into MNE-Python, followed by one loop that slices
    the two arrays returned by the decomposition and hands each slice to
    the plotting calls.

    What the script itself does (the order of the calls, the constants
    it passes, the two indexing expressions, the loop) is written out
    below.  What MNE does inside a call is not part of the script: every
    MNE entry point is a field of the interface [MNE], and statements
    about the script hold for every implementation of that interface.
    A small reference implementation, [mne_ref], is used to run the
    script on concrete inputs. *)

From Stdlib Require Import String List Bool Arith ZArith QArith Qround Lia.
From Stdlib Require Import DecimalString DecimalNat.
Import ListNotations.
Close Scope Q_scope.

Set Implicit Arguments.

(** ** Exceptions and outcomes *)

(** The error names of the pipeline's written specification.  The script
    has no [raise] statement and defines no exception class; the names
    are declared so that statements about them can be written. *)
Inductive pipeline_error : Type :=
  | InvalidChannelSet
  | InvalidFilterRange
  | InvalidResampleRate
  | SingularCovariance
  | ShapeMismatch.

(** What can propagate out of a statement of the script. *)
Inductive exn : Type :=
  | IndexError                          (* numpy: index out of bounds *)
  | LibraryError (cls : string)         (* raised inside an MNE call; [cls] is the class name *)
  | PipelineError (e : pipeline_error).

(** Result of a library call. *)
Inductive libresult (T : Type) : Type :=
  | LibOk (v : T)
  | LibRaise (cls : string).
Arguments LibRaise {T} cls.

Inductive outcome (T : Type) : Type :=
  | Done (v : T)
  | Raise (e : exn).
Arguments Raise {T} e.

(** ** Statements: state passing with exceptions

    A statement transforms the interpreter state and either completes or
    raises.  As in Python, the effects made before an exception stay. *)
Definition M (S T : Type) : Type := S -> S * outcome T.

Definition ret {S T} (v : T) : M S T := fun st => (st, Done v).

Definition bind {S T U} (c : M S T) (k : T -> M S U) : M S U :=
  fun st =>
    match c st with
    | (st1, Done v) => k v st1
    | (st1, Raise e) => (st1, Raise e)
    end.

Definition throw {S T} (e : exn) : M S T := fun st => (st, Raise e).

Definition modify {S} (f : S -> S) : M S unit := fun st => (f st, Done tt).

Declare Scope stmt_scope.
Delimit Scope stmt_scope with stmt.
Notation "x <- c ;; k" := (bind c (fun x => k))
  (at level 61, c at next level, right associativity) : stmt_scope.
Notation "c ;; k" := (bind c (fun _ => k))
  (at level 61, right associativity) : stmt_scope.
Local Open Scope stmt_scope.

(** [for x in xs: body x], collecting what each iteration yields. *)
Fixpoint for_each {S X T} (xs : list X) (body : X -> M S T) : M S (list T) :=
  match xs with
  | [] => ret []
  | x :: xs' =>
      v <- body x ;;
      vs <- for_each xs' body ;;
      ret (v :: vs)
  end.

(** Python's [range(n)]. *)
Definition range (n : nat) : list nat := seq 0 n.

(** Python's [str(n)] for a non-negative integer, as used in f-strings. *)
Definition str_of_nat (n : nat) : string :=
  NilEmpty.string_of_uint (Nat.to_uint n).

(** ** USER INPUT (lines 28-31) *)

Record Config : Type := {
  RAW_FILE : string;
  N_ICA : nat;
  LOW_FREQ : Q;
  HIGH_FREQ : Q
}.

Definition shipped_config : Config :=
  {| RAW_FILE := "your_file_meg.fif";
     N_ICA := 30;
     LOW_FREQ := 1.0;
     HIGH_FREQ := 40.0 |}.

(** Constants written directly in the calls. *)
Definition NOTCH_FREQ : Q := 50.        (* raw.notch_filter(50) *)
Definition RESAMPLE_RATE : Q := 200.    (* raw.resample(200) *)
Definition RANDOM_STATE : Z := 97.      (* random_state=97 *)
Definition TOPO_CONTOURS : nat := 0.    (* contours=0 *)
Definition TOPO_SPHERE : Q := 0.09.     (* sphere=0.09 *)

(** ** Data *)

Inductive ch_type : Type := Mag | Grad | EEG | EOG | ECG | Stim | Misc.

(** [raw.info]: sampling rate and the channels in order. *)
Record Info : Type := {
  sfreq : Q;
  chs : list (string * ch_type)
}.

Section Pipeline.

(** The type of one sample (a float64 in the script).  Samples are only
    moved around by the script, never computed with. *)
Variable sample : Type.

(** An [mne.io.Raw] with its data loaded: [n_channels] rows of
    [n_times] samples. *)
Record Raw : Type := {
  info : Info;
  data : list (list sample)
}.

Definition n_channels (r : Raw) : nat := length (data r).
Definition n_times (r : Raw) : nat :=
  match data r with [] => 0 | ch :: _ => length ch end.

(** A two-dimensional numpy array: its shape and its rows. *)
Record ndarray2 : Type := {
  shape0 : nat;
  shape1 : nat;
  rows : list (list sample)
}.

(** The invariant every numpy array satisfies. *)
Definition well_shaped (a : ndarray2) : Prop :=
  length (rows a) = shape0 a /\
  Forall (fun r => length r = shape1 a) (rows a).

Definition row_data (a : ndarray2) (i : nat) : list sample :=
  nth i (rows a) [].

Definition col_data (a : ndarray2) (j : nat) : list sample :=
  flat_map (fun r => match nth_error r j with
                     | Some x => [x]
                     | None => []
                     end) (rows a).

(** One component's pair, as bound by one iteration of the loop. *)
Record ComponentFeature : Type := {
  index : nat;
  temporal : list sample;
  spatial : list sample
}.

(** ** The MNE interface

    The entry points the script calls.  The in-place methods of [Raw]
    ([pick_types], [filter], [notch_filter], [resample]) are given as
    the new contents of the object they were called on. *)
Class MNE : Type := {
  ICA : Type;
  read_raw_fif : string -> libresult Raw;
  pick_types : bool -> bool -> bool -> bool -> Raw -> libresult Raw;
  filter : Q -> Q -> Raw -> libresult Raw;
  notch_filter : Q -> Raw -> libresult Raw;
  resample : Q -> Raw -> libresult Raw;
  ica_fit : nat -> Z -> Raw -> libresult ICA;
  get_sources : ICA -> Raw -> libresult ndarray2;
  get_components : ICA -> libresult ndarray2;
  plot_topomap : list sample -> Info -> nat -> Q -> libresult unit
}.

(** What MNE documents about [resample]: the instance it returns has
    the requested sampling rate. *)
Class MNE_documented (L : MNE) : Prop := {
  resample_sets_sfreq :
    forall r raw raw', resample r raw = LibOk raw' -> sfreq (info raw') = r
}.

Context {L : MNE}.

(** ** LOAD RAW MEG and BASIC CLEANING (lines 38-52)

    The name [raw] is bound once, by [read_raw_fif]; every later
    [raw.method(...)] discards the returned value and relies on the
    method having updated that one object.  The state of these
    statements is therefore the contents of the object [raw]. *)

Definition method (f : Raw -> libresult Raw) : M Raw unit :=
  fun raw =>
    match f raw with
    | LibOk raw' => (raw', Done tt)
    | LibRaise cls => (raw, Raise (LibraryError cls))
    end.

(** raw.pick_types(meg=True, eeg=False, eog=False, ecg=False) *)
Definition keep_meg_channels : M Raw unit :=
  method (pick_types true false false false).

Definition basic_cleaning (cfg : Config) : M Raw unit :=
  method (filter (LOW_FREQ cfg) (HIGH_FREQ cfg)) ;;
  method (notch_filter NOTCH_FREQ) ;;
  method (resample RESAMPLE_RATE).

(** Channel selection followed by the cleaning calls. *)
Definition preprocess (cfg : Config) : M Raw unit :=
  keep_meg_channels ;;
  basic_cleaning cfg.

(** ** RUN ICA (lines 59-70) *)

Definition lib {S T} (r : libresult T) : M S T :=
  match r with
  | LibOk v => ret v
  | LibRaise cls => throw (LibraryError cls)
  end.

(** Yields the pair [(sources, mixing)]. *)
Definition run_ica (cfg : Config) : M Raw (ndarray2 * ndarray2) :=
  fun raw =>
    (ica <- lib (ica_fit (N_ICA cfg) RANDOM_STATE raw) ;;
     src <- lib (get_sources ica raw) ;;
     mix <- lib (get_components ica) ;;
     ret (src, mix)) raw.

(** ** VISUALIZATION LOOP (lines 78-104) *)

(** A basic index into one of the two arrays.  numpy returns a view:
    the slice shares the array's memory, it is not a copy. *)
Inductive array_name : Type := Sources | Mixing.
Inductive view : Type :=
  | RowOf (a : array_name) (i : nat)     (* a[i] *)
  | ColOf (a : array_name) (j : nat).    (* a[:, j] *)

(** What reaches the screen, in order. *)
Inductive event : Type :=
  | Figure (w h : Q)                     (* plt.figure(figsize=(w, h)) *)
  | Plot (ys : list sample) (lw : Q)     (* plt.plot(ys, lw=lw) *)
  | Title (s : string)
  | XLabel (s : string)
  | YLabel (s : string)
  | TightLayout
  | Show
  | Topomap (ws : list sample) (i : Info).  (* drawn by plot_topomap, show=True *)

(** The module-level names the loop reads and writes. *)
Record Env : Type := {
  sources : ndarray2;
  mixing : ndarray2;
  raw_info : Info;
  ic : option nat;
  var_temporal : option view;
  var_spatial : option view;
  display : list event
}.

Definition array (a : array_name) (env : Env) : ndarray2 :=
  match a with Sources => sources env | Mixing => mixing env end.

(** The samples a view currently shows. *)
Definition read (v : view) (env : Env) : list sample :=
  match v with
  | RowOf a i => row_data (array a env) i
  | ColOf a j => col_data (array a env) j
  end.

(** a[i] for a non-negative i *)
Definition getitem_row (a : array_name) (i : nat) : M Env view :=
  fun env =>
    if i <? shape0 (array a env) then (env, Done (RowOf a i))
    else (env, Raise IndexError).

(** a[:, j] for a non-negative j *)
Definition getitem_col (a : array_name) (j : nat) : M Env view :=
  fun env =>
    if j <? shape1 (array a env) then (env, Done (ColOf a j))
    else (env, Raise IndexError).

Definition set_ic (i : nat) : M Env unit :=
  modify (fun env =>
    {| sources := sources env; mixing := mixing env; raw_info := raw_info env;
       ic := Some i; var_temporal := var_temporal env;
       var_spatial := var_spatial env; display := display env |}).

Definition set_temporal (v : view) : M Env unit :=
  modify (fun env =>
    {| sources := sources env; mixing := mixing env; raw_info := raw_info env;
       ic := ic env; var_temporal := Some v;
       var_spatial := var_spatial env; display := display env |}).

Definition set_spatial (v : view) : M Env unit :=
  modify (fun env =>
    {| sources := sources env; mixing := mixing env; raw_info := raw_info env;
       ic := ic env; var_temporal := var_temporal env;
       var_spatial := Some v; display := display env |}).

Definition emit (e : event) : M Env unit :=
  modify (fun env =>
    {| sources := sources env; mixing := mixing env; raw_info := raw_info env;
       ic := ic env; var_temporal := var_temporal env;
       var_spatial := var_spatial env; display := display env ++ [e] |}).

Definition deref (v : view) : M Env (list sample) :=
  fun env => (env, Done (read v env)).

Definition get_info : M Env Info := fun env => (env, Done (raw_info env)).

(** One iteration (lines 80-104). *)
Definition loop_body (i : nat) : M Env ComponentFeature :=
  set_ic i ;;
  t <- getitem_row Sources i ;;           (* temporal = sources[ic] *)
  set_temporal t ;;
  s <- getitem_col Mixing i ;;            (* spatial = mixing[:, ic] *)
  set_spatial s ;;
  (* Plot temporal *)
  emit (Figure 10 3) ;;
  ys <- deref t ;;
  emit (Plot ys 0.7) ;;
  emit (Title ("IC " ++ str_of_nat i ++ " - Temporal Signal")%string) ;;
  emit (XLabel "Time points") ;;
  emit (YLabel "Amplitude") ;;
  emit TightLayout ;;
  emit Show ;;
  (* Plot spatial topography *)
  emit (Figure 4 4) ;;
  ws <- deref s ;;
  inf <- get_info ;;
  lib (plot_topomap ws inf TOPO_CONTOURS TOPO_SPHERE) ;;
  emit (Topomap ws inf) ;;
  emit (Title ("IC " ++ str_of_nat i ++ " - Spatial Map")%string) ;;
  emit Show ;;
  ret {| index := i; temporal := ys; spatial := ws |}.

(** for ic in range(N_ICA): ... *)
Definition visualization_loop (n : nat) : M Env (list ComponentFeature) :=
  for_each (range n) loop_body.

(** The state in which the loop starts. *)
Definition loop_entry (src mix : ndarray2) (i : Info) : Env :=
  {| sources := src; mixing := mix; raw_info := i;
     ic := None; var_temporal := None; var_spatial := None; display := [] |}.

(** ** The whole script *)

Definition script (cfg : Config) : outcome (list ComponentFeature * list event) :=
  match read_raw_fif (RAW_FILE cfg) with
  | LibRaise cls => Raise (LibraryError cls)
  | LibOk raw0 =>
      match preprocess cfg raw0 with
      | (_, Raise e) => Raise e
      | (raw1, Done _) =>
          match run_ica cfg raw1 with
          | (_, Raise e) => Raise e
          | (raw2, Done (src, mix)) =>
              match visualization_loop (N_ICA cfg) (loop_entry src mix (info raw2)) with
              | (_, Raise e) => Raise e
              | (env, Done fs) => Done (fs, display env)
              end
          end
      end
  end.

End Pipeline.

Arguments loop_body {sample L} i _.
Arguments Figure {sample} w h.
Arguments Title {sample} s.
Arguments XLabel {sample} s.
Arguments YLabel {sample} s.
Arguments TightLayout {sample}.
Arguments Show {sample}.

(** ** Normal forms used in the proofs *)

Section LoopShapes.

Variable sample : Type.

(** The events of the "Plot temporal" block of iteration [i]. *)
Definition temporal_plot (i : nat) (ys : list sample) : list (event sample) :=
  [ Figure 10 3; Plot ys 0.7;
    Title ("IC " ++ str_of_nat i ++ " - Temporal Signal")%string;
    XLabel "Time points"; YLabel "Amplitude"; TightLayout; Show ].

(** The events of the "Plot spatial topography" block after the call
    to [plot_topomap] has returned. *)
Definition spatial_plot (i : nat) (ws : list sample) (inf : Info)
  : list (event sample) :=
  [ Topomap ws inf;
    Title ("IC " ++ str_of_nat i ++ " - Spatial Map")%string;
    Show ].

(** [env] with other values for the names the loop assigns. *)
Definition rebound (env : Env sample) (i : option nat) (t s : option view)
  (d : list (event sample)) : Env sample :=
  {| sources := sources env; mixing := mixing env; raw_info := raw_info env;
     ic := i; var_temporal := t; var_spatial := s; display := d |}.

(** Two states that hold the same arrays and the same [raw.info]. *)
Definition same_inputs (e1 e2 : Env sample) : Prop :=
  sources e1 = sources e2 /\ mixing e1 = mixing e2 /\ raw_info e1 = raw_info e2.

(** The pair the loop binds at index [i]. *)
Definition feature_at (src mix : ndarray2 sample) (i : nat)
  : ComponentFeature sample :=
  {| index := i; temporal := row_data src i; spatial := col_data mix i |}.

(** Everything a completed iteration [i] puts on the screen. *)
Definition drawn (src mix : ndarray2 sample) (inf : Info) (i : nat)
  : list (event sample) :=
  temporal_plot i (row_data src i) ++ [Figure 4 4]
    ++ spatial_plot i (col_data mix i) inf.

(** [plot_topomap] returns normally on every column the loop can reach. *)
Definition renders {L : MNE sample} (env : Env sample) : Prop :=
  forall j, j < shape0 (sources env) -> j < shape1 (mixing env) ->
    plot_topomap (col_data (mixing env) j) (raw_info env)
                 TOPO_CONTOURS TOPO_SPHERE = LibOk tt.

End LoopShapes.

Section LoopStates.

Variable sample : Type.

(** The state once iterations 0 .. k-1 have completed: the three names
    of the loop are bound to component k-1 and the screen has the plots
    of the k components, in index order. *)
Definition after_components (env : Env sample) (k : nat) : Env sample :=
  match k with
  | 0 => env
  | S k' =>
      rebound env (Some k') (Some (RowOf Sources k')) (Some (ColOf Mixing k'))
        (display env
           ++ flat_map (drawn (sources env) (mixing env) (raw_info env)) (range k))
  end.

End LoopStates.

(** ** A reference implementation of the interface

    Used to run the script on concrete recordings with integer samples.
    It follows what MNE documents about the objects' metadata: the
    channel list after [pick_types], a [ValueError] when a cutoff is not
    below the Nyquist frequency, a band-stop filter (no error) when the
    lower cutoff is above the upper one, the sampling rate and sample
    count after [resample] (any positive rate, higher than the current
    one included), a [ValueError] when [plot_topomap] is given a vector
    whose length is not the number of channels.  The sample values it
    produces are stand-ins (the filters return the samples as they
    are, the resampler picks the nearest earlier sample, the
    decomposition takes component k to be channel k): no statement below
    is about sample values computed by MNE. *)

Definition wanted (meg eeg eog ecg : bool) (t : ch_type) : bool :=
  match t with
  | Mag | Grad => meg
  | EEG => eeg
  | EOG => eog
  | ECG => ecg
  | Stim | Misc => false
  end.

Definition ref_pick_types (meg eeg eog ecg : bool) (raw : Raw Z)
  : libresult (Raw Z) :=
  let kept := List.filter (fun p => wanted meg eeg eog ecg (snd (fst p)))
                          (combine (chs (info raw)) (data raw)) in
  match kept with
  | [] => LibRaise "ValueError"
  | _ => LibOk {| info := {| sfreq := sfreq (info raw); chs := map fst kept |};
                  data := map snd kept |}
  end.

Definition nyquist (raw : Raw Z) : Q := (sfreq (info raw) / 2)%Q.

Definition below (f limit : Q) : bool := negb (Qle_bool limit f).

Definition ref_filter (l h : Q) (raw : Raw Z) : libresult (Raw Z) :=
  if below l (nyquist raw) && below h (nyquist raw) then LibOk raw
  else LibRaise "ValueError".

Definition ref_notch_filter (f : Q) (raw : Raw Z) : libresult (Raw Z) :=
  if below f (nyquist raw) then LibOk raw else LibRaise "ValueError".

Definition ref_resample (r : Q) (raw : Raw Z) : libresult (Raw Z) :=
  if Qle_bool r 0 then LibRaise "ValueError"
  else
    let step := (sfreq (info raw) / r)%Q in
    let n' := Z.to_nat (Qfloor (inject_Z (Z.of_nat (n_times raw)) / step + (1 # 2))%Q) in
    let pick ch k := nth (Z.to_nat (Qfloor (inject_Z (Z.of_nat k) * step)%Q)) ch 0%Z in
    LibOk {| info := {| sfreq := r; chs := chs (info raw) |};
             data := map (fun ch => map (pick ch) (seq 0 n')) (data raw) |}.

Definition ref_ica_fit (n : nat) (seed : Z) (raw : Raw Z) : libresult (nat * nat) :=
  if n <=? n_channels raw then LibOk (n, n_channels raw)
  else LibRaise "ValueError".

Definition ref_get_sources (ica : nat * nat) (raw : Raw Z) : libresult (ndarray2 Z) :=
  LibOk {| shape0 := fst ica; shape1 := n_times raw;
           rows := firstn (fst ica) (data raw) |}.

Definition ref_get_components (ica : nat * nat) : libresult (ndarray2 Z) :=
  LibOk {| shape0 := snd ica; shape1 := fst ica;
           rows := map (fun c => map (fun k => if c =? k then 1%Z else 0%Z)
                                     (seq 0 (fst ica)))
                       (seq 0 (snd ica)) |}.

Definition ref_plot_topomap (ws : list Z) (inf : Info) (contours : nat) (sphere : Q)
  : libresult unit :=
  if length ws =? length (chs inf) then LibOk tt else LibRaise "ValueError".

(** [disk] gives the recording stored under a file name, if any. *)
Definition mne_ref (disk : string -> option (Raw Z)) : MNE Z :=
  {| ICA := (nat * nat)%type;
     read_raw_fif := fun path =>
       match disk path with
       | Some raw => LibOk raw
       | None => LibRaise "FileNotFoundError"
       end;
     pick_types := ref_pick_types;
     filter := ref_filter;
     notch_filter := ref_notch_filter;
     resample := ref_resample;
     ica_fit := ref_ica_fit;
     get_sources := ref_get_sources;
     get_components := ref_get_components;
     plot_topomap := ref_plot_topomap |}.

Definition no_disk : string -> option (Raw Z) := fun _ => None.

(** Concrete recordings: two magnetometers and one EEG channel, six
    samples each, at the given sampling rate. *)
Definition recording (rate : Q) : Raw Z :=
  {| info := {| sfreq := rate;
                chs := [("MEG0111", Mag); ("MEG0121", Mag); ("EEG001", EEG)]%string |};
     data := [ [1; 2; 3; 4; 5; 6]; [10; 20; 30; 40; 50; 60];
               [-1; -2; -3; -4; -5; -6] ]%Z |}.

(** The shipped settings with the two cutoffs the other way round. *)
Definition inverted_band : Config :=
  {| RAW_FILE := "your_file_meg.fif";
     N_ICA := 30;
     LOW_FREQ := 50;
     HIGH_FREQ := 10 |}.

(** The shipped settings with two components instead of thirty. *)
Definition two_components : Config :=
  {| RAW_FILE := "your_file_meg.fif";
     N_ICA := 2;
     LOW_FREQ := 1.0;
     HIGH_FREQ := 40.0 |}.

(** A disk that holds one recording, at 1000 Hz, under the shipped name. *)
Definition one_file : string -> option (Raw Z) :=
  fun path =>
    if String.eqb path "your_file_meg.fif" then Some (recording 1000) else None.

(** Concrete arrays for the loop. *)
Definition array_2x3 : ndarray2 Z :=
  {| shape0 := 2; shape1 := 3; rows := [ [1; 2; 3]; [4; 5; 6] ]%Z |}.
Definition array_2x2 : ndarray2 Z :=
  {| shape0 := 2; shape1 := 2; rows := [ [7; 8]; [9; 10] ]%Z |}.
Definition array_1x3 : ndarray2 Z :=
  {| shape0 := 1; shape1 := 3; rows := [ [1; 2; 3] ]%Z |}.
Definition array_2x1 : ndarray2 Z :=
  {| shape0 := 2; shape1 := 1; rows := [ [7]; [9] ]%Z |}.
Definition array_3x2 : ndarray2 Z :=
  {| shape0 := 3; shape1 := 2; rows := [ [7; 8]; [9; 10]; [11; 12] ]%Z |}.
Definition two_mags : Info :=
  {| sfreq := 200; chs := [("MEG0111", Mag); ("MEG0121", Mag)]%string |}.

(** The arrays of the loop as the script would see them. *)
Definition short_sources : Env Z := loop_entry array_1x3 array_2x2 two_mags.
Definition short_mixing : Env Z := loop_entry array_2x3 array_2x1 two_mags.
Definition tall_mixing : Env Z := loop_entry array_2x3 array_3x2 two_mags.
Definition square_env : Env Z := loop_entry array_2x3 array_2x2 two_mags.

(** * Properties *)

Section LoopProperties.

Variable sample : Type.
Context {L : MNE sample}.

Ltac flatten_display := repeat rewrite <- app_assoc; cbn [app].

(** Runs the statements of an iteration as far as they are determined,
    one state at a time. *)
Ltac run_statements :=
  lazy beta iota zeta delta
    [loop_body bind set_ic set_temporal set_spatial emit modify
     getitem_row getitem_col deref get_info lib ret throw read array
     sources mixing raw_info ic var_temporal var_spatial display
     rebound feature_at].

(** What one iteration does, case by case. *)
Lemma loop_body_run (i : nat) (env : Env sample) :
  loop_body i env =
    if i <? shape0 (sources env) then
      if i <? shape1 (mixing env) then
        let ys := row_data (sources env) i in
        let ws := col_data (mixing env) i in
        let t := Some (RowOf Sources i) in
        let s := Some (ColOf Mixing i) in
        match plot_topomap ws (raw_info env) TOPO_CONTOURS TOPO_SPHERE with
        | LibOk _ =>
            (rebound env (Some i) t s
               (display env ++ temporal_plot i ys ++ [Figure 4 4]
                  ++ spatial_plot i ws (raw_info env)),
             Done (feature_at (sources env) (mixing env) i))
        | LibRaise cls =>
            (rebound env (Some i) t s
               (display env ++ temporal_plot i ys ++ [Figure 4 4]),
             Raise (LibraryError cls))
        end
      else
        (rebound env (Some i) (Some (RowOf Sources i)) (var_spatial env)
           (display env), Raise IndexError)
    else
      (rebound env (Some i) (var_temporal env) (var_spatial env) (display env),
       Raise IndexError).
Proof.
  destruct env as [src mix inf i0 t0 s0 d].
  run_statements.
  destruct (i <? shape0 src); [ | reflexivity ].
  run_statements.
  destruct (i <? shape1 mix); [ | reflexivity ].
  run_statements.
  destruct (plot_topomap _ _ _ _) as [ [] | cls ];
    run_statements; unfold temporal_plot, spatial_plot;
    flatten_display; reflexivity.
Qed.

(** Unfolding one turn of a [for] loop. *)
Lemma for_each_cons {S X T} (x : X) (xs : list X) (body : X -> M S T) (st : S) :
  for_each (x :: xs) body st =
    match body x st with
    | (st1, Done v) =>
        match for_each xs body st1 with
        | (st2, Done vs) => (st2, Done (v :: vs))
        | (st2, Raise e) => (st2, Raise e)
        end
    | (st1, Raise e) => (st1, Raise e)
    end.
Proof.
  simpl. unfold bind. destruct (body x st) as [st1 [v | e]]; [ | reflexivity ].
  destruct (for_each xs body st1) as [st2 [vs | e]]; reflexivity.
Qed.

Lemma same_inputs_refl (e : Env sample) : same_inputs e e.
Proof. repeat split. Qed.

Lemma same_inputs_trans (e1 e2 e3 : Env sample) :
  same_inputs e1 e2 -> same_inputs e2 e3 -> same_inputs e1 e3.
Proof.
  intros (H1 & H2 & H3) (H4 & H5 & H6). repeat split; congruence.
Qed.

Lemma same_inputs_sym (e1 e2 : Env sample) :
  same_inputs e1 e2 -> same_inputs e2 e1.
Proof. intros (H1 & H2 & H3). repeat split; congruence. Qed.

(** One iteration, run from two states that hold the same arrays:
    the same outcome, the same new events, and the arrays stay. *)
Lemma loop_body_rel (i : nat) (e1 e2 : Env sample) :
  same_inputs e1 e2 ->
  exists evs,
    snd (loop_body i e1) = snd (loop_body i e2) /\
    display (fst (loop_body i e1)) = display e1 ++ evs /\
    display (fst (loop_body i e2)) = display e2 ++ evs /\
    same_inputs e1 (fst (loop_body i e1)) /\
    same_inputs e2 (fst (loop_body i e2)).
Proof.
  intros (Hs & Hm & Hi). rewrite !loop_body_run. rewrite <- Hs, <- Hm, <- Hi.
  destruct (i <? shape0 (sources e1)).
  - destruct (i <? shape1 (mixing e1)).
    + cbv zeta. destruct (plot_topomap _ _ _ _) as [ [] | cls ]; simpl.
      * eexists; repeat split; reflexivity.
      * eexists; repeat split; reflexivity.
    + exists []. simpl. rewrite !app_nil_r. repeat split.
  - exists []. simpl. rewrite !app_nil_r. repeat split.
Qed.

(** The same for the whole loop, over any list of indices. *)
Lemma loop_rel (l : list nat) :
  forall e1 e2 : Env sample,
  same_inputs e1 e2 ->
  exists evs,
    snd (for_each l loop_body e1) = snd (for_each l loop_body e2) /\
    display (fst (for_each l loop_body e1)) = display e1 ++ evs /\
    display (fst (for_each l loop_body e2)) = display e2 ++ evs /\
    same_inputs e1 (fst (for_each l loop_body e1)) /\
    same_inputs e2 (fst (for_each l loop_body e2)).
Proof.
  induction l as [ | i l IH ]; intros e1 e2 H.
  - exists []. simpl. rewrite !app_nil_r. repeat split.
  - rewrite !for_each_cons.
    destruct (loop_body_rel i H) as (evs & Ho & Hd1 & Hd2 & Hf1 & Hf2).
    destruct (loop_body i e1) as [a1 o1], (loop_body i e2) as [a2 o2].
    simpl in Ho, Hd1, Hd2, Hf1, Hf2. subst o2.
    destruct o1 as [v | e].
    + assert (Ha : same_inputs a1 a2).
      { apply same_inputs_trans with e1; [ now apply same_inputs_sym | ].
        now apply same_inputs_trans with e2. }
      destruct (IH a1 a2 Ha) as (evs' & Ho' & Hd1' & Hd2' & Hf1' & Hf2').
      destruct (for_each l loop_body a1) as [b1 p1],
               (for_each l loop_body a2) as [b2 p2].
      simpl in Ho', Hd1', Hd2', Hf1', Hf2'. subst p2.
      exists (evs ++ evs').
      rewrite !app_assoc, <- Hd1, <- Hd2.
      assert (Hg1 : same_inputs e1 b1) by (now apply same_inputs_trans with a1).
      assert (Hg2 : same_inputs e2 b2) by (now apply same_inputs_trans with a2).
      destruct p1 as [vs | e]; cbn [fst snd]; auto.
    + exists evs. cbn [fst snd]. auto.
Qed.

(** ** Rows and columns of a well-shaped array *)

Lemma row_data_is_row (a : ndarray2 sample) (i : nat) :
  well_shaped a -> i < shape0 a ->
  nth_error (rows a) i = Some (row_data a i) /\
  length (row_data a i) = shape1 a.
Proof.
  intros [Hlen Hall] Hi. unfold row_data.
  assert (Hin : i < length (rows a)) by lia.
  split.
  - now apply nth_error_nth'.
  - rewrite Forall_forall in Hall. apply Hall. now apply nth_In.
Qed.

Lemma col_data_is_column (a : ndarray2 sample) (j : nat) :
  well_shaped a -> j < shape1 a ->
  Forall2 (fun r x => nth_error r j = Some x) (rows a) (col_data a j) /\
  length (col_data a j) = shape0 a.
Proof.
  intros [Hlen Hall] Hj. unfold col_data. rewrite <- Hlen. clear Hlen.
  induction Hall as [ | r rs Hr Hrs IH ]; simpl.
  - split; [ constructor | reflexivity ].
  - destruct (nth_error r j) as [x | ] eqn:Hx.
    + destruct IH as [IH1 IH2]. simpl. split; [ now constructor | now rewrite IH2 ].
    + apply nth_error_None in Hx. lia.
Qed.

(** ** The loop on a range of indices *)

(** Enough rows and columns, and a renderer that returns: the loop
    completes, with one pair per index, and the screen shows each
    iteration's plots in order. *)
Lemma loop_completes (n : nat) :
  forall (a : nat) (env : Env sample),
  a + n <= shape0 (sources env) ->
  a + n <= shape1 (mixing env) ->
  renders env ->
  exists env',
    for_each (seq a n) loop_body env =
      (env', Done (map (feature_at (sources env) (mixing env)) (seq a n))) /\
    same_inputs env env' /\
    display env' =
      display env ++ flat_map (drawn (sources env) (mixing env) (raw_info env)) (seq a n).
Proof.
  induction n as [ | n IH ]; intros a env H0 H1 Hr.
  - exists env. simpl. rewrite app_nil_r. repeat split.
  - cbn [seq]. rewrite for_each_cons, loop_body_run.
    assert (Ha0 : a < shape0 (sources env)) by lia.
    assert (Ha1 : a < shape1 (mixing env)) by lia.
    pose proof Ha0 as Hb0. pose proof Ha1 as Hb1.
    apply Nat.ltb_lt in Hb0, Hb1. rewrite Hb0, Hb1. cbv zeta.
    rewrite (Hr a Ha0 Ha1).
    set (env1 := rebound env _ _ _ _).
    destruct (IH (S a) env1) as (env' & Hrun & Hsame & Hdisp);
      [ simpl; lia | simpl; lia | exact Hr | ].
    exists env'. rewrite Hrun. simpl. repeat split.
    + apply Hsame.
    + apply Hsame.
    + apply Hsame.
    + rewrite Hdisp. subst env1. unfold drawn. simpl.
      repeat rewrite <- app_assoc. reflexivity.
Qed.

(** Too few rows or columns: the loop stops with [IndexError]. *)
Lemma loop_index_error (n : nat) :
  forall (a : nat) (env : Env sample),
  a <= shape0 (sources env) ->
  a <= shape1 (mixing env) ->
  renders env ->
  shape0 (sources env) < a + n \/ shape1 (mixing env) < a + n ->
  snd (for_each (seq a n) loop_body env) = Raise IndexError.
Proof.
  induction n as [ | n IH ]; intros a env H0 H1 Hr Hshort.
  - lia.
  - cbn [seq]. rewrite for_each_cons, loop_body_run.
    destruct (a <? shape0 (sources env)) eqn:E0; [ | reflexivity ].
    destruct (a <? shape1 (mixing env)) eqn:E1; [ | reflexivity ].
    apply Nat.ltb_lt in E0, E1. cbv zeta. rewrite (Hr a E0 E1).
    set (env1 := rebound env _ _ _ _).
    specialize (IH (S a) env1).
    destruct (for_each (seq (S a) n) loop_body env1) as [env2 [vs | e]];
      simpl in IH |- *.
    + assert (Habs : @Done (list (ComponentFeature sample)) vs = Raise IndexError).
      { apply IH; [ lia | lia | exact Hr | lia ]. }
      discriminate Habs.
    + apply IH; [ lia | lia | exact Hr | lia ].
Qed.

(** No run of the loop ends in one of the pipeline's named errors: an
    iteration raises [IndexError] or what [plot_topomap] raised. *)
Lemma loop_raises_no_pipeline_error (l : list nat) :
  forall (env : Env sample) (e : pipeline_error),
  snd (for_each l loop_body env) <> Raise (PipelineError e).
Proof.
  induction l as [ | i l IH ]; intros env e.
  - simpl. discriminate.
  - rewrite for_each_cons, loop_body_run.
    destruct (i <? shape0 (sources env)); [ | simpl; discriminate ].
    destruct (i <? shape1 (mixing env)); [ | simpl; discriminate ].
    cbv zeta. destruct (plot_topomap _ _ _ _) as [ [] | cls ];
      [ | simpl; discriminate ].
    set (env1 := rebound env _ _ _ _).
    specialize (IH env1 e).
    destruct (for_each l loop_body env1) as [env2 [vs | e']]; simpl in *.
    + discriminate.
    + exact IH.
Qed.

Lemma nth_error_map_seq {T} (f : nat -> T) (n i : nat) :
  i < n -> nth_error (map f (seq 0 n)) i = Some (f i).
Proof.
  intros Hi. apply map_nth_error.
  rewrite (nth_error_nth' (seq 0 n) 0) by (rewrite length_seq; exact Hi).
  now rewrite seq_nth.
Qed.

(** ** The extraction step *)

(** C1: for a fitted decomposition (well-shaped [sources] with at least
    [n] rows, well-shaped [mixing] with at least [n] columns) and every
    component index [i < n], the loop completes and its [i]-th pair has
    index [i], row [i] of [sources] as temporal part and column [i] of
    [mixing] as spatial part; these are the samples handed to the two
    plotting calls. *)
Theorem extraction_pairs_row_with_column (env : Env sample) (n i : nat) :
  well_shaped (sources env) ->
  well_shaped (mixing env) ->
  n <= shape0 (sources env) ->
  n <= shape1 (mixing env) ->
  renders env ->
  i < n ->
  exists env' fs f,
    visualization_loop n env = (env', Done fs) /\
    nth_error fs i = Some f /\
    index f = i /\
    nth_error (rows (sources env)) i = Some (temporal f) /\
    Forall2 (fun r x => nth_error r i = Some x) (rows (mixing env)) (spatial f) /\
    In (Plot (temporal f) 0.7) (display env') /\
    In (Topomap (spatial f) (raw_info env)) (display env').
Proof.
  intros Wsrc Wmix H0 H1 Hr Hi.
  destruct (@loop_completes n 0 env) as (env' & Hrun & _ & Hdisp);
    [ simpl; lia | simpl; lia | exact Hr | ].
  exists env', (map (feature_at (sources env) (mixing env)) (seq 0 n)),
    (feature_at (sources env) (mixing env) i).
  assert (Hseq : In i (seq 0 n)) by (apply in_seq; lia).
  repeat split.
  - exact Hrun.
  - now apply nth_error_map_seq.
  - apply row_data_is_row; [ exact Wsrc | lia ].
  - apply col_data_is_column; [ exact Wmix | lia ].
  - rewrite Hdisp. apply in_or_app. right. apply in_flat_map.
    exists i. split; [ exact Hseq | ]. unfold drawn, temporal_plot. simpl. tauto.
  - rewrite Hdisp. apply in_or_app. right. apply in_flat_map.
    exists i. split; [ exact Hseq | ]. unfold drawn. apply in_or_app. right.
    simpl. tauto.
Qed.

(** C6: for a valid pair ([sources] is n_components x n_samples,
    [mixing] is n_channels x n_components) the loop yields exactly
    n_components pairs, each temporal part has n_samples samples and
    each spatial part has n_channels weights. *)
Theorem extraction_shapes (env : Env sample) (n n_samples n_chans : nat) :
  well_shaped (sources env) ->
  shape0 (sources env) = n ->
  shape1 (sources env) = n_samples ->
  well_shaped (mixing env) ->
  shape0 (mixing env) = n_chans ->
  shape1 (mixing env) = n ->
  renders env ->
  exists env' fs,
    visualization_loop n env = (env', Done fs) /\
    length fs = n /\
    Forall (fun f => length (temporal f) = n_samples /\
                     length (spatial f) = n_chans) fs.
Proof.
  intros Wsrc S0 S1 Wmix M0 M1 Hr.
  destruct (@loop_completes n 0 env) as (env' & Hrun & _ & _);
    [ simpl; lia | simpl; lia | exact Hr | ].
  exists env', (map (feature_at (sources env) (mixing env)) (seq 0 n)).
  split; [ exact Hrun | ]. split.
  - now rewrite length_map, length_seq.
  - apply Forall_forall. intros f Hf. apply in_map_iff in Hf.
    destruct Hf as (i & <- & Hi). apply in_seq in Hi. simpl. split.
    + rewrite <- S1. apply row_data_is_row; [ exact Wsrc | lia ].
    + rewrite <- M0. apply col_data_is_column; [ exact Wmix | lia ].
Qed.

(** C7, as the script has it: the loop makes no shape check and never
    raises [ShapeMismatch] (nor any other named pipeline error).  With
    a renderer that returns, it completes with [n] pairs exactly when
    [sources] has at least [n] rows and [mixing] at least [n] columns,
    larger counts included, and otherwise stops with numpy's
    [IndexError]. *)
Theorem extraction_has_no_shape_check (env : Env sample) (n : nat) :
  renders env ->
  (forall e, snd (visualization_loop n env) <> Raise (PipelineError e)) /\
  (n <= shape0 (sources env) /\ n <= shape1 (mixing env) ->
     exists fs, snd (visualization_loop n env) = Done fs /\ length fs = n) /\
  (shape0 (sources env) < n \/ shape1 (mixing env) < n ->
     snd (visualization_loop n env) = Raise IndexError).
Proof.
  intros Hr. split; [ | split ].
  - intros e. apply loop_raises_no_pipeline_error.
  - intros [H0 H1].
    destruct (@loop_completes n 0 env) as (env' & Hrun & _ & _);
      [ simpl; lia | simpl; lia | exact Hr | ].
    unfold visualization_loop, range. rewrite Hrun. simpl.
    eexists. split; [ reflexivity | ]. now rewrite length_map, length_seq.
  - intros Hshort. apply loop_index_error; [ lia | lia | exact Hr | simpl; lia ].
Qed.

(** C8: running the loop a second time, on the state the first run
    left, gives the same outcome (the same sequence of pairs, or the
    same exception) and puts the same events on the screen again. *)
Theorem extraction_twice_same_features (env : Env sample) (n : nat) :
  let first := visualization_loop n env in
  let second := visualization_loop n (fst first) in
  snd second = snd first /\
  exists evs,
    display (fst first) = display env ++ evs /\
    display (fst second) = display (fst first) ++ evs.
Proof.
  intros first second. subst first second. unfold visualization_loop.
  destruct (@loop_rel (range n) env env (same_inputs_refl env))
    as (_ & _ & _ & _ & Hsame & _).
  destruct (@loop_rel (range n) env _ Hsame) as (evs & Ho & Hd1 & Hd2 & _).
  split; [ now symmetry | ]. exists evs. split; assumption.
Qed.

(** C10: whatever the outcome of the loop, [sources] and [mixing] are
    afterwards what they were before it, and every view into them shows
    the same samples as before. *)
Theorem extraction_leaves_arrays_unchanged (env : Env sample) (n : nat) :
  let env' := fst (visualization_loop n env) in
  sources env' = sources env /\
  mixing env' = mixing env /\
  forall v : view, read v env' = read v env.
Proof.
  intros env'. subst env'. unfold visualization_loop.
  destruct (@loop_rel (range n) env env (same_inputs_refl env))
    as (_ & _ & _ & _ & (Hs & Hm & _) & _).
  repeat split; try congruence.
  intros [ [ | ] i | [ | ] j ]; simpl; congruence.
Qed.

End LoopProperties.

Section PreprocessProperties.

Variable sample : Type.
Context {L : MNE sample}.

(** The four calls in order; the first one that raises ends the stage
    and leaves [raw] as the calls before it made it. *)
Lemma preprocess_run (cfg : Config) (raw : Raw sample) :
  preprocess cfg raw =
    match pick_types true false false false raw with
    | LibRaise cls => (raw, Raise (LibraryError cls))
    | LibOk r1 =>
        match filter (LOW_FREQ cfg) (HIGH_FREQ cfg) r1 with
        | LibRaise cls => (r1, Raise (LibraryError cls))
        | LibOk r2 =>
            match notch_filter NOTCH_FREQ r2 with
            | LibRaise cls => (r2, Raise (LibraryError cls))
            | LibOk r3 =>
                match resample RESAMPLE_RATE r3 with
                | LibRaise cls => (r3, Raise (LibraryError cls))
                | LibOk r4 => (r4, Done tt)
                end
            end
        end
    end.
Proof.
  unfold preprocess, keep_meg_channels, basic_cleaning, bind, method.
  destruct (pick_types _ _ _ _ raw) as [r1 | c]; [ | reflexivity ].
  destruct (filter _ _ r1) as [r2 | c]; [ | reflexivity ].
  destruct (notch_filter _ r2) as [r3 | c]; [ | reflexivity ].
  destruct (resample _ r3) as [r4 | c]; reflexivity.
Qed.

(** A completed stage is the chain of the four library results, held
    by [raw] itself. *)
Lemma preprocess_done (cfg : Config) (raw raw' : Raw sample) :
  preprocess cfg raw = (raw', Done tt) ->
  exists r1 r2 r3,
    pick_types true false false false raw = LibOk r1 /\
    filter (LOW_FREQ cfg) (HIGH_FREQ cfg) r1 = LibOk r2 /\
    notch_filter NOTCH_FREQ r2 = LibOk r3 /\
    resample RESAMPLE_RATE r3 = LibOk raw'.
Proof.
  rewrite preprocess_run.
  destruct (pick_types _ _ _ _ raw) as [r1 | c] eqn:E1; [ | discriminate ].
  destruct (filter _ _ r1) as [r2 | c] eqn:E2; [ | discriminate ].
  destruct (notch_filter _ r2) as [r3 | c] eqn:E3; [ | discriminate ].
  destruct (resample _ r3) as [r4 | c] eqn:E4; [ | discriminate ].
  intros H. injection H as <-. exists r1, r2, r3. auto.
Qed.

(** The stage defines no error of its own: it completes or passes on
    what a library call raised. *)
Lemma preprocess_outcome (cfg : Config) (raw : Raw sample) :
  snd (preprocess cfg raw) = Done tt \/
  exists cls, snd (preprocess cfg raw) = Raise (LibraryError cls).
Proof.
  rewrite preprocess_run.
  destruct (pick_types _ _ _ _ raw) as [r1 | c]; [ | right; now exists c ].
  destruct (filter _ _ r1) as [r2 | c]; [ | right; now exists c ].
  destruct (notch_filter _ r2) as [r3 | c]; [ | right; now exists c ].
  destruct (resample _ r3) as [r4 | c]; [ now left | right; now exists c ].
Qed.

Lemma preprocess_raises_no_pipeline_error (cfg : Config) (raw : Raw sample)
  (e : pipeline_error) :
  snd (preprocess cfg raw) <> Raise (PipelineError e).
Proof.
  destruct (preprocess_outcome cfg raw) as [H | [cls H]]; rewrite H; discriminate.
Qed.

Lemma preprocess_done_rate (cfg : Config) (raw raw' : Raw sample) :
  MNE_documented L ->
  preprocess cfg raw = (raw', Done tt) ->
  sfreq (info raw') = RESAMPLE_RATE.
Proof.
  intros HL H. apply preprocess_done in H.
  destruct H as (r1 & r2 & r3 & _ & _ & _ & H).
  exact (resample_sets_sfreq (MNE_documented := HL) _ _ H).
Qed.

(** C2, as the script has it: preprocessing works in place.  The four
    calls overwrite the one object [raw]; no second signal is made.
    After a run that completes, [raw] itself holds the result of the
    chain of calls, at 200 Hz, so a recording made at any other rate is
    no longer what it was. *)
Theorem preprocessing_is_in_place (cfg : Config) (raw raw' : Raw sample) :
  MNE_documented L ->
  preprocess cfg raw = (raw', Done tt) ->
  (exists r1 r2 r3,
     pick_types true false false false raw = LibOk r1 /\
     filter (LOW_FREQ cfg) (HIGH_FREQ cfg) r1 = LibOk r2 /\
     notch_filter NOTCH_FREQ r2 = LibOk r3 /\
     resample RESAMPLE_RATE r3 = LibOk raw') /\
  sfreq (info raw') = RESAMPLE_RATE /\
  (sfreq (info raw) <> RESAMPLE_RATE -> raw' <> raw).
Proof.
  intros HL H. split; [ now apply preprocess_done | ].
  pose proof (@preprocess_done_rate _ _ _ HL H) as Hrate.
  split; [ exact Hrate | ].
  intros Hne Heq. subst raw'. contradiction.
Qed.

(** C3, as the script has it: the resampling call is made with the
    fixed rate 200 whenever the three calls before it return, whatever
    the sampling rate of the signal; the stage never raises
    [InvalidResampleRate]; when it completes, the signal is at 200 Hz. *)
Theorem resampling_is_unconditional (cfg : Config) (raw : Raw sample) :
  MNE_documented L ->
  snd (preprocess cfg raw) <> Raise (PipelineError InvalidResampleRate) /\
  (forall r1 r2 r3,
     pick_types true false false false raw = LibOk r1 ->
     filter (LOW_FREQ cfg) (HIGH_FREQ cfg) r1 = LibOk r2 ->
     notch_filter NOTCH_FREQ r2 = LibOk r3 ->
     preprocess cfg raw = method (resample RESAMPLE_RATE) r3) /\
  (forall raw', preprocess cfg raw = (raw', Done tt) ->
     sfreq (info raw') = RESAMPLE_RATE).
Proof.
  intros HL. split; [ apply preprocess_raises_no_pipeline_error | ]. split.
  - intros r1 r2 r3 H1 H2 H3. rewrite preprocess_run, H1, H2, H3.
    unfold method. destruct (resample _ r3); reflexivity.
  - intros raw' H. exact (@preprocess_done_rate _ _ _ HL H).
Qed.

(** C4, as the script has it: the two cutoffs are passed to
    [raw.filter] as they are.  The stage makes no range check and never
    raises [InvalidFilterRange]: once the channels are picked, it stops
    at the filter call exactly when the library call raises, with the
    library's exception, and otherwise goes on to the notch filter. *)
Theorem filter_range_is_not_validated (cfg : Config) (raw r1 : Raw sample) :
  pick_types true false false false raw = LibOk r1 ->
  snd (preprocess cfg raw) <> Raise (PipelineError InvalidFilterRange) /\
  match filter (LOW_FREQ cfg) (HIGH_FREQ cfg) r1 with
  | LibRaise cls => preprocess cfg raw = (r1, Raise (LibraryError cls))
  | LibOk r2 =>
      preprocess cfg raw =
        (method (notch_filter NOTCH_FREQ) ;; method (resample RESAMPLE_RATE)) r2
  end.
Proof.
  intros H1. split; [ apply preprocess_raises_no_pipeline_error | ].
  rewrite preprocess_run, H1.
  destruct (filter _ _ r1) as [r2 | c]; [ | reflexivity ].
  unfold bind, method.
  destruct (notch_filter _ r2) as [r3 | c]; [ | reflexivity ].
  destruct (resample _ r3); reflexivity.
Qed.

End PreprocessProperties.

(** * Runs on concrete inputs *)

Lemma mne_ref_documented (disk : string -> option (Raw Z)) :
  MNE_documented (mne_ref disk).
Proof.
  constructor. intros r raw raw'. simpl. unfold ref_resample.
  destruct (Qle_bool r 0); [ discriminate | ].
  intros H. injection H as <-. reflexivity.
Qed.

(** The whole script on the disk [one_file], with two components: the
    file is read, the EEG channel dropped, the signal brought to
    200 Hz, and both components are plotted. *)
Example script_on_one_file :
  match script (L := mne_ref one_file) two_components with
  | Done (fs, evs) =>
      fs = [ {| index := 0; temporal := [1]%Z; spatial := [1; 0]%Z |};
             {| index := 1; temporal := [10]%Z; spatial := [0; 1]%Z |} ] /\
      length evs = 22
  | Raise _ => False
  end.
Proof.
  vm_compute. split; reflexivity.
Qed.

(** With the file missing, the script stops at the first call. *)
Example script_without_file :
  script (L := mne_ref no_disk) shipped_config =
    Raise (LibraryError "FileNotFoundError").
Proof. vm_compute. reflexivity. Qed.

Lemma array_2x3_well_shaped : well_shaped array_2x3.
Proof. split; [ reflexivity | repeat constructor ]. Qed.

Lemma array_2x2_well_shaped : well_shaped array_2x2.
Proof. split; [ reflexivity | repeat constructor ]. Qed.

Lemma two_by_two_renders :
  renders (L := mne_ref no_disk) (loop_entry array_2x3 array_2x2 two_mags).
Proof.
  intros j H0 H1. simpl in H0, H1.
  destruct j as [ | [ | j ] ]; [ reflexivity | reflexivity | lia ].
Qed.

Lemma one_row_renders :
  renders (L := mne_ref no_disk) (loop_entry array_1x3 array_2x2 two_mags).
Proof.
  intros j H0 H1. simpl in H0, H1.
  destruct j as [ | j ]; [ reflexivity | lia ].
Qed.

(** Component 1 of the 2 x 3 sources and 2 x 2 mixing arrays. *)
Lemma extraction_pairs_row_with_column_witness :
  exists env' fs f,
    visualization_loop (L := mne_ref no_disk) 2
      (loop_entry array_2x3 array_2x2 two_mags) = (env', Done fs) /\
    nth_error fs 1 = Some f /\
    index f = 1 /\
    nth_error (rows array_2x3) 1 = Some (temporal f) /\
    Forall2 (fun r x => nth_error r 1 = Some x) (rows array_2x2) (spatial f) /\
    In (Plot (temporal f) 0.7) (display env') /\
    In (Topomap (spatial f) two_mags) (display env').
Proof.
  apply (@extraction_pairs_row_with_column Z (mne_ref no_disk)
           (loop_entry array_2x3 array_2x2 two_mags) 2 1).
  - exact array_2x3_well_shaped.
  - exact array_2x2_well_shaped.
  - simpl; lia.
  - simpl; lia.
  - exact two_by_two_renders.
  - lia.
Defined.

(** Two components, three samples, two channels. *)
Lemma extraction_shapes_witness :
  exists env' fs,
    visualization_loop (L := mne_ref no_disk) 2
      (loop_entry array_2x3 array_2x2 two_mags) = (env', Done fs) /\
    length fs = 2 /\
    Forall (fun f => length (temporal f) = 3 /\ length (spatial f) = 2) fs.
Proof.
  apply (@extraction_shapes Z (mne_ref no_disk)
           (loop_entry array_2x3 array_2x2 two_mags) 2 3 2).
  - exact array_2x3_well_shaped.
  - reflexivity.
  - reflexivity.
  - exact array_2x2_well_shaped.
  - reflexivity.
  - reflexivity.
  - exact two_by_two_renders.
Defined.

(** One row of sources, two components asked for. *)
Lemma extraction_has_no_shape_check_witness :
  snd (visualization_loop (L := mne_ref no_disk) 2
         (loop_entry array_1x3 array_2x2 two_mags)) = Raise IndexError.
Proof.
  apply (@extraction_has_no_shape_check Z (mne_ref no_disk)
           (loop_entry array_1x3 array_2x2 two_mags) 2 one_row_renders).
  left. simpl. lia.
Defined.

(** C7 as stated fails: with one component asked for, two rows of
    sources and two columns of mixing (both counts differ from the
    number of components) the loop completes and yields the pair of
    component 0; it does not raise [ShapeMismatch]. *)
Lemma larger_arrays_are_accepted :
  shape0 array_2x3 <> 1 /\
  shape1 array_2x2 <> 1 /\
  snd (visualization_loop (L := mne_ref no_disk) 1
         (loop_entry array_2x3 array_2x2 two_mags))
    = Done [ {| index := 0; temporal := [1; 2; 3]%Z; spatial := [7; 9]%Z |} ] /\
  snd (visualization_loop (L := mne_ref no_disk) 1
         (loop_entry array_2x3 array_2x2 two_mags))
    <> Raise (PipelineError ShapeMismatch).
Proof.
  split; [ discriminate | ].
  split; [ discriminate | ].
  split; [ reflexivity | discriminate ].
Qed.

(** A recording at 1000 Hz, shipped settings. *)
Lemma preprocessing_is_in_place_witness :
  sfreq (info (fst (preprocess (L := mne_ref no_disk) shipped_config
                                (recording 1000)))) = RESAMPLE_RATE /\
  fst (preprocess (L := mne_ref no_disk) shipped_config (recording 1000))
    <> recording 1000.
Proof.
  destruct (@preprocessing_is_in_place Z (mne_ref no_disk) shipped_config
              (recording 1000)
              (fst (preprocess (L := mne_ref no_disk) shipped_config
                               (recording 1000)))
              (mne_ref_documented no_disk))
    as (_ & Hrate & Hchanged).
  - reflexivity.
  - split; [ exact Hrate | ]. apply Hchanged. simpl. discriminate.
Defined.

(** C2 as stated fails: after preprocessing a 1000 Hz recording of
    three channels and six samples, [raw] is at 200 Hz and holds two
    channels of one sample. *)
Lemma preprocessing_overwrites_raw :
  let raw := recording 1000 in
  let raw' := fst (preprocess (L := mne_ref no_disk) shipped_config raw) in
  snd (preprocess (L := mne_ref no_disk) shipped_config raw) = Done tt /\
  sfreq (info raw) = 1000%Q /\ sfreq (info raw') = 200%Q /\
  n_channels raw = 3 /\ n_channels raw' = 2 /\
  n_times raw = 6 /\ n_times raw' = 1 /\
  raw' <> raw.
Proof.
  cbv zeta. repeat (split; [ reflexivity | ]).
  vm_compute. discriminate.
Qed.

(** A recording at 150 Hz, shipped settings. *)
Lemma resampling_is_unconditional_witness :
  sfreq (info (fst (preprocess (L := mne_ref no_disk) shipped_config
                                (recording 150)))) = RESAMPLE_RATE.
Proof.
  destruct (@resampling_is_unconditional Z (mne_ref no_disk) shipped_config
              (recording 150) (mne_ref_documented no_disk))
    as (_ & _ & Hrate).
  apply Hrate. reflexivity.
Defined.

(** C3 as stated fails: the target rate 200 is above the 150 Hz of the
    recording, and preprocessing completes with the signal resampled
    to 200 Hz (six samples become eight). *)
Lemma upsampling_is_not_rejected :
  let raw := recording 150 in
  let raw' := fst (preprocess (L := mne_ref no_disk) shipped_config raw) in
  (sfreq (info raw) < RESAMPLE_RATE)%Q /\
  snd (preprocess (L := mne_ref no_disk) shipped_config raw) = Done tt /\
  sfreq (info raw') = 200%Q /\
  n_times raw = 6 /\ n_times raw' = 8.
Proof.
  cbv zeta. repeat (split; [ reflexivity | ]). reflexivity.
Qed.

(** Cutoffs 50 and 10 on a recording at 1000 Hz. *)
Lemma filter_range_is_not_validated_witness :
  snd (preprocess (L := mne_ref no_disk) inverted_band (recording 1000))
    <> Raise (PipelineError InvalidFilterRange).
Proof.
  apply (@filter_range_is_not_validated Z (mne_ref no_disk) inverted_band
           (recording 1000)
           {| info := {| sfreq := 1000;
                         chs := [("MEG0111", Mag); ("MEG0121", Mag)]%string |};
              data := [ [1; 2; 3; 4; 5; 6]; [10; 20; 30; 40; 50; 60] ]%Z |}).
  reflexivity.
Defined.

(** C4 as stated fails: with low_cut = 50 and high_cut = 10 on a
    recording at 1000 Hz the filter call returns (MNE reads the pair
    as a band-stop) and preprocessing completes. *)
Lemma inverted_band_is_not_rejected :
  (HIGH_FREQ inverted_band <= LOW_FREQ inverted_band)%Q /\
  snd (preprocess (L := mne_ref no_disk) inverted_band (recording 1000))
    = Done tt.
Proof.
  split; [ discriminate | reflexivity ].
Qed.

(** * Further properties of the loop *)

Section LoopOutcomes.

Variable sample : Type.
Context {L : MNE sample}.

(** A loop over two lists of indices, one after the other. *)
Lemma for_each_app {S X T} (l1 l2 : list X) (body : X -> M S T) :
  forall st : S,
  for_each (l1 ++ l2) body st =
    match for_each l1 body st with
    | (st1, Done v1) =>
        match for_each l2 body st1 with
        | (st2, Done v2) => (st2, Done (v1 ++ v2))
        | (st2, Raise e) => (st2, Raise e)
        end
    | (st1, Raise e) => (st1, Raise e)
    end.
Proof.
  induction l1 as [ | x l1 IH ]; intros st.
  - cbn [app for_each]. unfold ret.
    destruct (for_each l2 body st) as [st2 [v2 | e]]; reflexivity.
  - cbn [app]. rewrite !for_each_cons.
    destruct (body x st) as [st1 [v | e]]; [ | reflexivity ].
    rewrite IH.
    destruct (for_each l1 body st1) as [st2 [v1 | e]]; [ | reflexivity ].
    destruct (for_each l2 body st2) as [st3 [v2 | e]]; reflexivity.
Qed.

Lemma after_components_inputs (env : Env sample) (k : nat) :
  sources (after_components env k) = sources env /\
  mixing (after_components env k) = mixing env /\
  raw_info (after_components env k) = raw_info env.
Proof. destruct k; repeat split. Qed.

Lemma after_components_display (env : Env sample) (k : nat) :
  display (after_components env k) =
    display env
      ++ flat_map (drawn (sources env) (mixing env) (raw_info env)) (range k).
Proof.
  destruct k; [ | reflexivity ].
  cbn [after_components range seq flat_map]. now rewrite app_nil_r.
Qed.

(** Iteration [k] run after the [k] iterations before it, when it
    completes. *)
Lemma loop_body_after (env : Env sample) (k : nat) :
  k < shape0 (sources env) ->
  k < shape1 (mixing env) ->
  plot_topomap (col_data (mixing env) k) (raw_info env)
               TOPO_CONTOURS TOPO_SPHERE = LibOk tt ->
  loop_body k (after_components env k) =
    (after_components env (S k),
     Done (feature_at (sources env) (mixing env) k)).
Proof.
  intros H0 H1 Hp. rewrite loop_body_run.
  destruct (after_components_inputs env k) as (Es & Em & Ei).
  rewrite Es, Em, Ei.
  apply Nat.ltb_lt in H0, H1. rewrite H0, H1. cbv zeta. rewrite Hp.
  f_equal. unfold rebound. rewrite Es, Em, Ei.
  rewrite after_components_display.
  cbn [after_components rebound]. unfold range.
  rewrite seq_S, flat_map_app. cbn [Nat.add flat_map]. rewrite app_nil_r.
  unfold drawn at 3. rewrite <- !app_assoc. reflexivity.
Qed.

(** The first [k] iterations, when each of them completes. *)
Lemma loop_prefix (k : nat) :
  forall env : Env sample,
  k <= shape0 (sources env) ->
  k <= shape1 (mixing env) ->
  (forall j, j < k ->
     plot_topomap (col_data (mixing env) j) (raw_info env)
                  TOPO_CONTOURS TOPO_SPHERE = LibOk tt) ->
  for_each (range k) loop_body env =
    (after_components env k,
     Done (map (feature_at (sources env) (mixing env)) (range k))).
Proof.
  induction k as [ | k IH ]; intros env H0 H1 Hp.
  - reflexivity.
  - unfold range in *. rewrite seq_S. cbn [Nat.add].
    rewrite for_each_app, IH by (try lia; intros j Hj; apply Hp; lia).
    rewrite for_each_cons, loop_body_after by (try lia; apply Hp; lia).
    cbn [for_each]. unfold ret. rewrite map_app. reflexivity.
Qed.

(** An exception in iteration [k], after [k] completed iterations, ends
    the loop: the later indices are not visited. *)
Lemma loop_stops_at (k n : nat) (env e : Env sample) (x : exn) :
  k < n ->
  k <= shape0 (sources env) ->
  k <= shape1 (mixing env) ->
  (forall j, j < k ->
     plot_topomap (col_data (mixing env) j) (raw_info env)
                  TOPO_CONTOURS TOPO_SPHERE = LibOk tt) ->
  loop_body k (after_components env k) = (e, Raise x) ->
  visualization_loop n env = (e, Raise x).
Proof.
  intros Hk H0 H1 Hp Hbody. unfold visualization_loop.
  replace (range n) with (range k ++ k :: seq (S k) (n - S k)).
  - rewrite for_each_app, loop_prefix by assumption.
    rewrite for_each_cons, Hbody. reflexivity.
  - unfold range. transitivity (seq 0 (k + S (n - S k))).
    + rewrite seq_app. reflexivity.
    + f_equal. lia.
Qed.

(** A loop that completes had enough rows and columns, and every call
    to [plot_topomap] returned. *)
Lemma loop_done_conditions (n : nat) :
  forall (env env' : Env sample) (fs : list (ComponentFeature sample)),
  visualization_loop n env = (env', Done fs) ->
  n <= shape0 (sources env) /\
  n <= shape1 (mixing env) /\
  (forall j, j < n ->
     plot_topomap (col_data (mixing env) j) (raw_info env)
                  TOPO_CONTOURS TOPO_SPHERE = LibOk tt).
Proof.
  unfold visualization_loop.
  induction n as [ | n IH ]; intros env env' fs H.
  - repeat split; lia.
  - unfold range in *. rewrite seq_S in H. cbn [Nat.add] in H.
    rewrite for_each_app in H.
    destruct (for_each (seq 0 n) loop_body env) as [st1 [v1 | e]] eqn:E;
      [ | discriminate ].
    destruct (IH _ _ _ E) as (H0 & H1 & Hp).
    pose proof (loop_prefix (k := n) env H0 H1 Hp) as Hpre.
    unfold range in Hpre. rewrite E in Hpre. injection Hpre as -> _.
    rewrite for_each_cons, loop_body_run in H.
    destruct (after_components_inputs env n) as (Es & Em & Ei).
    rewrite Es, Em, Ei in H.
    destruct (n <? shape0 (sources env)) eqn:C0; [ | discriminate ].
    destruct (n <? shape1 (mixing env)) eqn:C1; [ | discriminate ].
    cbv zeta in H.
    destruct (plot_topomap (col_data (mixing env) n) (raw_info env)
                           TOPO_CONTOURS TOPO_SPHERE) as [ [] | cls ] eqn:Cp;
      [ | discriminate ].
    apply Nat.ltb_lt in C0, C1. repeat split; try lia.
    intros j Hj. destruct (Nat.eq_dec j n) as [-> | Hne];
      [ exact Cp | apply Hp; lia ].
Qed.

Lemma drawn_length (src mix : ndarray2 sample) (inf : Info) (n : nat) :
  forall a, length (flat_map (drawn src mix inf) (seq a n)) = 11 * n.
Proof.
  induction n as [ | n IH ]; intros a; [ reflexivity | ].
  cbn [seq flat_map]. rewrite length_app, IH.
  unfold drawn, temporal_plot, spatial_plot. cbn [length app]. lia.
Qed.

(** The pairs and the final state of a loop that completes. *)
Lemma loop_done_state (n : nat) (env env' : Env sample)
  (fs : list (ComponentFeature sample)) :
  visualization_loop n env = (env', Done fs) ->
  fs = map (feature_at (sources env) (mixing env)) (range n) /\
  env' = after_components env n.
Proof.
  intros H. destruct (loop_done_conditions _ _ H) as (H0 & H1 & Hp).
  pose proof (loop_prefix (k := n) env H0 H1 Hp) as Hpre.
  unfold visualization_loop in H. rewrite H in Hpre.
  injection Hpre as -> ->. split; reflexivity.
Qed.

(** X1: a loop that completes is fully determined by the arrays.  There
    were at least [n] rows in [sources] and [n] columns in [mixing],
    every call to [plot_topomap] returned, the pairs are those of the
    indices 0 .. n-1 in order, the names [ic], [temporal], [spatial] are
    left bound to the last component (untouched when [n] is 0), and the
    screen received eleven events per component. *)
Theorem completed_loop_is_determined (n : nat) (env env' : Env sample)
  (fs : list (ComponentFeature sample)) :
  visualization_loop n env = (env', Done fs) ->
  n <= shape0 (sources env) /\
  n <= shape1 (mixing env) /\
  (forall j, j < n ->
     plot_topomap (col_data (mixing env) j) (raw_info env)
                  TOPO_CONTOURS TOPO_SPHERE = LibOk tt) /\
  fs = map (feature_at (sources env) (mixing env)) (range n) /\
  env' = after_components env n /\
  length (display env') = length (display env) + 11 * n.
Proof.
  intros H. destruct (loop_done_conditions _ _ H) as (H0 & H1 & Hp).
  destruct (@loop_done_state _ _ _ _ H) as (-> & ->).
  repeat (split; [ assumption || reflexivity | ]).
  rewrite after_components_display, length_app. f_equal.
  apply drawn_length.
Qed.

(** X2: [sources] has fewer rows than components asked for.  The loop
    plots the components that exist, then stops with [IndexError] at
    [sources[ic]]: [ic] is the first missing index, while [temporal] and
    [spatial] still show the last component plotted. *)
Theorem loop_stops_at_missing_row (n : nat) (env : Env sample) :
  let k := shape0 (sources env) in
  k < n ->
  k <= shape1 (mixing env) ->
  renders env ->
  exists env',
    visualization_loop n env = (env', Raise IndexError) /\
    ic env' = Some k /\
    var_temporal env' = var_temporal (after_components env k) /\
    var_spatial env' = var_spatial (after_components env k) /\
    display env' =
      display env
        ++ flat_map (drawn (sources env) (mixing env) (raw_info env)) (range k).
Proof.
  intros k Hk H1 Hr.
  assert (Hp : forall j, j < k ->
            plot_topomap (col_data (mixing env) j) (raw_info env)
                         TOPO_CONTOURS TOPO_SPHERE = LibOk tt)
    by (intros j Hj; apply Hr; unfold k in *; lia).
  eexists. split.
  - apply (@loop_stops_at k n env); [ exact Hk | unfold k; lia | exact H1 | exact Hp | ].
    rewrite loop_body_run.
    destruct (after_components_inputs env k) as (Es & _). rewrite Es.
    fold k. rewrite Nat.ltb_irrefl. reflexivity.
  - cbn [rebound ic var_temporal var_spatial display].
    repeat split. apply after_components_display.
Qed.

(** X3: [mixing] has fewer columns than components asked for (and
    [sources] has more rows than that).  The loop stops with
    [IndexError] at [mixing[:, ic]], after [temporal] has already been
    rebound to the row of the missing component: [temporal] and
    [spatial] then belong to different components. *)
Theorem loop_stops_at_missing_column (n : nat) (env : Env sample) :
  let k := shape1 (mixing env) in
  k < n ->
  k < shape0 (sources env) ->
  renders env ->
  exists env',
    visualization_loop n env = (env', Raise IndexError) /\
    ic env' = Some k /\
    var_temporal env' = Some (RowOf Sources k) /\
    var_spatial env' = var_spatial (after_components env k) /\
    display env' =
      display env
        ++ flat_map (drawn (sources env) (mixing env) (raw_info env)) (range k).
Proof.
  intros k Hk H0 Hr.
  assert (Hp : forall j, j < k ->
            plot_topomap (col_data (mixing env) j) (raw_info env)
                         TOPO_CONTOURS TOPO_SPHERE = LibOk tt)
    by (intros j Hj; apply Hr; unfold k in *; lia).
  eexists. split.
  - apply (@loop_stops_at k n env); [ exact Hk | lia | unfold k; lia | exact Hp | ].
    rewrite loop_body_run.
    destruct (after_components_inputs env k) as (Es & Em & _). rewrite Es, Em.
    apply Nat.ltb_lt in H0. rewrite H0. fold k. rewrite Nat.ltb_irrefl.
    reflexivity.
  - cbn [rebound ic var_temporal var_spatial display].
    repeat split. apply after_components_display.
Qed.

(** X4: [plot_topomap] raises for component [k], the first one for
    which it does.  The loop stops with the library's exception; the
    components before [k] are fully plotted, and of component [k] the
    temporal plot and an empty 4 x 4 figure are on the screen. *)
Theorem loop_stops_at_failed_topomap (n k : nat) (env : Env sample)
  (cls : string) :
  k < n ->
  k < shape0 (sources env) ->
  k < shape1 (mixing env) ->
  (forall j, j < k ->
     plot_topomap (col_data (mixing env) j) (raw_info env)
                  TOPO_CONTOURS TOPO_SPHERE = LibOk tt) ->
  plot_topomap (col_data (mixing env) k) (raw_info env)
               TOPO_CONTOURS TOPO_SPHERE = LibRaise cls ->
  exists env',
    visualization_loop n env = (env', Raise (LibraryError cls)) /\
    ic env' = Some k /\
    var_temporal env' = Some (RowOf Sources k) /\
    var_spatial env' = Some (ColOf Mixing k) /\
    display env' =
      display env
        ++ flat_map (drawn (sources env) (mixing env) (raw_info env)) (range k)
        ++ temporal_plot k (row_data (sources env) k) ++ [Figure 4 4].
Proof.
  intros Hk H0 H1 Hp Hfail.
  eexists. split.
  - apply (@loop_stops_at k n env); [ exact Hk | lia | lia | exact Hp | ].
    rewrite loop_body_run.
    destruct (after_components_inputs env k) as (Es & Em & Ei).
    rewrite Es, Em, Ei.
    pose proof H0 as C0. pose proof H1 as C1.
    apply Nat.ltb_lt in C0, C1. rewrite C0, C1. cbv zeta. rewrite Hfail.
    reflexivity.
  - cbn [rebound ic var_temporal var_spatial display].
    repeat split. rewrite after_components_display, <- app_assoc. reflexivity.
Qed.

(** X5: every failure of the loop can be traced.  It happens at one
    index [k] below [n], left in [ic], after the [k] components before
    it were plotted.  It is [IndexError] exactly because [k] is the
    number of rows of [sources] or of columns of [mixing], or it is the
    exception that [plot_topomap] raised on column [k]; nothing else
    stops the loop. *)
Theorem loop_failure_is_traceable (n : nat) :
  forall (env env' : Env sample) (x : exn),
  visualization_loop n env = (env', Raise x) ->
  exists k,
    k < n /\
    ic env' = Some k /\
    (forall j, j < k ->
       plot_topomap (col_data (mixing env) j) (raw_info env)
                    TOPO_CONTOURS TOPO_SPHERE = LibOk tt) /\
    ((x = IndexError /\
      (k = shape0 (sources env) /\ k <= shape1 (mixing env) \/
       k = shape1 (mixing env) /\ k < shape0 (sources env))) \/
     (exists cls,
        x = LibraryError cls /\
        k < shape0 (sources env) /\ k < shape1 (mixing env) /\
        plot_topomap (col_data (mixing env) k) (raw_info env)
                     TOPO_CONTOURS TOPO_SPHERE = LibRaise cls)).
Proof.
  induction n as [ | n IH ]; intros env env' x H.
  - discriminate H.
  - unfold visualization_loop, range in H. rewrite seq_S in H.
    cbn [Nat.add] in H. rewrite for_each_app in H.
    destruct (for_each (seq 0 n) loop_body env) as [st1 [v1 | e]] eqn:E.
    + destruct (loop_done_conditions _ _ E) as (H0 & H1 & Hp).
      pose proof (loop_prefix (k := n) env H0 H1 Hp) as Hpre.
      unfold range in Hpre. rewrite E in Hpre. injection Hpre as -> _.
      rewrite for_each_cons, loop_body_run in H.
      destruct (after_components_inputs env n) as (Es & Em & Ei).
      rewrite Es, Em, Ei in H.
      exists n. split; [ lia | ].
      destruct (n <? shape0 (sources env)) eqn:C0.
      * destruct (n <? shape1 (mixing env)) eqn:C1.
        -- cbv zeta in H.
           destruct (plot_topomap (col_data (mixing env) n) (raw_info env)
                                  TOPO_CONTOURS TOPO_SPHERE)
             as [ [] | cls ] eqn:Cp; [ discriminate H | ].
           injection H as <- <-. apply Nat.ltb_lt in C0, C1.
           split; [ reflexivity | ]. split; [ exact Hp | ].
           right. exists cls. auto.
        -- injection H as <- <-. apply Nat.ltb_lt in C0.
           apply Nat.ltb_ge in C1.
           split; [ reflexivity | ]. split; [ exact Hp | ].
           left. split; [ reflexivity | ]. right. lia.
      * injection H as <- <-. apply Nat.ltb_ge in C0.
        split; [ reflexivity | ]. split; [ exact Hp | ].
        left. split; [ reflexivity | ]. left. lia.
    + injection H as <- <-.
      destruct (IH _ _ _ E) as (k & Hk & Hrest).
      exists k. split; [ lia | exact Hrest ].
Qed.

End LoopOutcomes.

(** * The whole script *)

Section ScriptProperties.

Variable sample : Type.
Context {L : MNE sample}.




End ScriptProperties.

(** ** Titles *)

Lemma string_length_append (a b : string) :
  String.length (a ++ b) = String.length a + String.length b.
Proof. induction a as [ | c a IH ]; simpl; [ reflexivity | now rewrite IH ]. Qed.

Lemma string_append_cancel_r (s : string) :
  forall a b : string, (a ++ s)%string = (b ++ s)%string -> a = b.
Proof.
  induction a as [ | c a IH ]; intros [ | d b ] H; simpl in H.
  - reflexivity.
  - apply (f_equal String.length) in H. simpl in H.
    rewrite string_length_append in H. lia.
  - apply (f_equal String.length) in H. simpl in H.
    rewrite string_length_append in H. lia.
  - injection H as -> H. f_equal. now apply IH.
Qed.

Lemma str_of_nat_inj (i j : nat) : str_of_nat i = str_of_nat j -> i = j.
Proof.
  unfold str_of_nat. intros H.
  apply DecimalNat.Unsigned.to_uint_inj.
  apply (f_equal NilEmpty.uint_of_string) in H.
  rewrite !NilEmpty.usu in H. now injection H.
Qed.

(** X7: the titles name their component without ambiguity: two
    temporal plots, or two spatial maps, carry the same title only when
    they belong to the same component index. *)
Theorem titles_identify_components (i j : nat) :
  ("IC " ++ str_of_nat i ++ " - Temporal Signal")%string
    = ("IC " ++ str_of_nat j ++ " - Temporal Signal")%string \/
  ("IC " ++ str_of_nat i ++ " - Spatial Map")%string
    = ("IC " ++ str_of_nat j ++ " - Spatial Map")%string ->
  i = j.
Proof.
  intros [H | H]; simpl in H; injection H as H;
    apply string_append_cancel_r in H; now apply str_of_nat_inj.
Qed.

(** * Further runs on concrete inputs *)

Lemma short_mixing_renders : renders (L := mne_ref no_disk) short_mixing.
Proof.
  intros j H0 H1. simpl in H0, H1.
  destruct j as [ | j ]; [ reflexivity | lia ].
Qed.

(** Two components out of 2 x 3 sources and 2 x 2 mixing. *)
Lemma completed_loop_is_determined_witness :
  visualization_loop (L := mne_ref no_disk) 2 square_env
    = (after_components square_env 2,
       Done [ {| index := 0; temporal := [1; 2; 3]%Z; spatial := [7; 9]%Z |};
              {| index := 1; temporal := [4; 5; 6]%Z; spatial := [8; 10]%Z |} ]) /\
  ic (after_components square_env 2) = Some 1 /\
  length (display (after_components square_env 2)) = 22.
Proof.
  assert (E : visualization_loop (L := mne_ref no_disk) 2 square_env
              = (after_components square_env 2,
                 Done [ {| index := 0; temporal := [1; 2; 3]%Z; spatial := [7; 9]%Z |};
                        {| index := 1; temporal := [4; 5; 6]%Z; spatial := [8; 10]%Z |} ]))
    by (vm_compute; reflexivity).
  destruct (@completed_loop_is_determined Z (mne_ref no_disk) 2 square_env _ _ E)
    as (_ & _ & _ & _ & _ & Hlen).
  split; [ exact E | ]. split; [ reflexivity | exact Hlen ].
Defined.

(** One row of sources, two components asked for. *)
Lemma loop_stops_at_missing_row_witness :
  exists env',
    visualization_loop (L := mne_ref no_disk) 2 short_sources
      = (env', Raise IndexError) /\
    ic env' = Some 1 /\
    var_temporal env' = Some (RowOf Sources 0) /\
    var_spatial env' = Some (ColOf Mixing 0) /\
    display env' = drawn array_1x3 array_2x2 two_mags 0.
Proof.
  destruct (@loop_stops_at_missing_row Z (mne_ref no_disk) 2 short_sources)
    as (env' & H & Hic & Ht & Hs & Hd).
  - simpl. lia.
  - simpl. lia.
  - exact one_row_renders.
  - exists env'. repeat split; assumption.
Defined.

(** One column of mixing, two components asked for. *)
Lemma loop_stops_at_missing_column_witness :
  exists env',
    visualization_loop (L := mne_ref no_disk) 2 short_mixing
      = (env', Raise IndexError) /\
    ic env' = Some 1 /\
    var_temporal env' = Some (RowOf Sources 1) /\
    var_spatial env' = Some (ColOf Mixing 0) /\
    display env' = drawn array_2x3 array_2x1 two_mags 0.
Proof.
  destruct (@loop_stops_at_missing_column Z (mne_ref no_disk) 2 short_mixing)
    as (env' & H & Hic & Ht & Hs & Hd).
  - simpl. lia.
  - simpl. lia.
  - exact short_mixing_renders.
  - exists env'. repeat split; assumption.
Defined.

(** Three weights for two channels: the first topographic map fails. *)
Lemma loop_stops_at_failed_topomap_witness :
  exists env',
    visualization_loop (L := mne_ref no_disk) 2 tall_mixing
      = (env', Raise (LibraryError "ValueError")) /\
    ic env' = Some 0 /\
    var_temporal env' = Some (RowOf Sources 0) /\
    var_spatial env' = Some (ColOf Mixing 0) /\
    display env' = temporal_plot 0 [1; 2; 3]%Z ++ [Figure 4 4].
Proof.
  destruct (@loop_stops_at_failed_topomap Z (mne_ref no_disk) 2 0 tall_mixing
              "ValueError")
    as (env' & H & Hic & Ht & Hs & Hd).
  - lia.
  - simpl. lia.
  - simpl. lia.
  - intros j Hj. lia.
  - reflexivity.
  - exists env'. repeat split; assumption.
Defined.

(** The failure of the loop on one row of sources, traced. *)
Lemma loop_failure_is_traceable_witness :
  exists k,
    k < 2 /\
    ic (fst (visualization_loop (L := mne_ref no_disk) 2 short_sources)) = Some k /\
    k = shape0 (sources short_sources).
Proof.
  destruct (@loop_failure_is_traceable Z (mne_ref no_disk) 2 short_sources
              (fst (visualization_loop (L := mne_ref no_disk) 2 short_sources))
              IndexError)
    as (k & Hk & Hic & _ & [ (_ & [ (Hrow & _) | (Hcol & Hlt) ]) | (cls & Habs & _) ]).
  - vm_compute. reflexivity.
  - exists k. auto.
  - simpl in Hcol, Hlt. lia.
  - discriminate Habs.
Defined.


(** Component 3 and itself. *)
Lemma titles_identify_components_witness : 3 = 3.
Proof.
  apply (titles_identify_components 3 3). left. reflexivity.
Defined.
